(** * pyam: the unit-conversion tutorial and the two CI workflows

    The material is the tutorial notebook
    [doc/source/tutorials/unit_conversion.ipynb] and the two GitHub
    Actions workflows, [nightly] and [pytest].  The notebook and the
    workflows are embedded as the data they are (JSON cells, YAML
    mappings).  What reads them is written out as executable functions:
    a lexer for the Python of the code cells, and for the workflows the
    matrix expansion, the [if:] expressions, cron schedules and branch
    filters.  The method [convert_unit] that the notebook calls belongs
    to pyam's [IamDataFrame] and is not part of the material: of the
    conversions, what is embedded is the table they start from and the
    calls as the cells write them. *)

From Stdlib Require Import String Ascii List Bool Arith ZArith QArith.
Import ListNotations.

Open Scope string_scope.
Open Scope list_scope.

(** ** Text helpers *)

Module Text.

(** The line feed that ends a source line in the JSON ([\n]). *)
Definition nl : string := String (ascii_of_nat 10) EmptyString.

(** The double quote that JSON writes escaped inside a string. *)
Definition dq : string := String (ascii_of_nat 34) EmptyString.

(** A line of text with its terminating line feed. *)
Definition ln (s : string) : string := s ++ nl.

(** [c] lies between [lo] and [hi] in character code. *)
Definition between (lo hi c : ascii) : bool :=
  (nat_of_ascii lo <=? nat_of_ascii c)%nat && (nat_of_ascii c <=? nat_of_ascii hi)%nat.

Definition is_digit (c : ascii) : bool := between "0" "9" c.

(** [s] with the character [c] added at its end. *)
Definition snoc (s : string) (c : ascii) : string := s ++ String c EmptyString.

(** [contains pat s]: [pat] occurs in [s] as a contiguous substring. *)
Fixpoint contains (pat s : string) : bool :=
  String.prefix pat s ||
  match s with
  | EmptyString => false
  | String _ s' => contains pat s'
  end.

End Text.

Import Text.

(** ** The notebook document (nbformat JSON) *)

Module Notebook.

(** A cell of the [cells] array.  [cell_type] is kept as the JSON string
    it is, so that the set of cell types that occur is a property of the
    document and not of this type.  [metadata] is the empty object in
    every cell; code cells have [execution_count] null and no outputs. *)
Record cell := {
  cell_type : string;
  source : list string
}.

Definition cell_00 : cell :=
  {| cell_type := "markdown";
     source :=
      [ln "# Performing unit conversions";
       nl;
       ln "Conversion of timeseries data units is one of the most tedious aspects of modelling and scenario analysis -";
       ln "and it is a frequent source for errors!";
       nl;
       ln "The **pyam** function [convert_unit()](https://pyam-iamc.readthedocs.io/en/stable/api/iamdataframe.html#pyam.IamDataFrame.convert_unit) can support and simplify this task.";
       ln "The function uses the Python package [pint](https://pint.readthedocs.io),";
       ln "which natively handles conversion of standard (SI) units and commonly used equivalents ";
       ln "(e.g., exajoule to terawatt-hours, `EJ -> TWh`).";
       ln "The **pint** package can also parse combined units (e.g., exajoule per year, `EJ/yr`).";
       nl;
       ln "To better support common use cases when working with energy systems analysis and integrated-assessment scenarios,";
       ln "the default [pint.UnitRegistry](https://pint.readthedocs.io/en/stable/developers_reference.html#pint.UnitRegistry)";
       ln "used by **pyam** loads the unit definitions collected at [IAMconsortium/units](https://github.com/IAMconsortium/units).";
       ln "This repository provides a wide range of conversion factors in a **pint**-compatible format";
       ln ("so that they can easily be used across multiple applications (" ++ "**pyam** is just one of them).");
       nl;
       ln ("<div class=" ++ dq ++ "alert alert-info" ++ dq ++ ">");
       ln "    ";
       ln "If you have suggestions for additional units to be handled in **pyam** by default,";
       ln "please [start an issue](https://github.com/IAMconsortium/units/issues) in the units repository -";
       ln "or make a pull request!";
       nl;
       ln "</div>";
       nl;
       ln "## Overview";
       nl;
       ln "This notebook illustrates the following features:";
       nl;
       ln "0. Define timeseries data and initialize an **IamDataFrame**";
       ln "1. Use the default **pint** unit conversion";
       ln "2. Use a unit & conversion factor from the [IAMconsortium/units](https://github.com/IAMconsortium/units) repository";
       ln "3. Use a custom conversion factor";
       ln "4. Use contexts to specify conversion metrics";
       "5. More advanced use cases with a unit registry"] |}.

Definition cell_01 : cell :=
  {| cell_type := "code";
     source :=
      [ln "import pandas as pd";
       "import pyam"] |}.

Definition cell_02 : cell :=
  {| cell_type := "markdown";
     source :=
      [ln "## 0. Define timeseries data and initialize an IamDataFrame";
       nl;
       ln "This tutorial uses a scenario similar to the data in the **first-steps tutorial** (here on";
       ln "[GitHub](https://github.com/IAMconsortium/pyam/blob/master/doc/source/tutorials/pyam_first_steps.ipynb)";
       ln "and on [read the docs](https://pyam-iamc.readthedocs.io/en/stable/tutorials/pyam_first_steps.html)).  ";
       "Please read that tutorial for the reference and further information."] |}.

Definition cell_03 : cell :=
  {| cell_type := "code";
     source :=
      [ln "UNIT_DF = pd.DataFrame([";
       ln "    ['MESSAGEix-GLOBIOM 1.0', 'CD-LINKS_NPi', 'World', 'Primary Energy', 'EJ/yr', 500.74, 636.79, 809.93, 1284.78],";
       ln "    ['MESSAGEix-GLOBIOM 1.0', 'CD-LINKS_NPi', 'World', 'Emissions|CH4', 'Mt CH4/yr', 327.92, 354.35, 377.88, 403.98],";
       ln "],";
       ln "    columns=pyam.IAMC_IDX + [2010, 2030, 2050, 2100],";
       ln ")";
       nl;
       ln "df = pyam.IamDataFrame(UNIT_DF)";
       "df.timeseries()"] |}.

Definition cell_04 : cell :=
  {| cell_type := "markdown";
     source :=
      [ln "## 1. Use the default pint unit conversion";
       nl;
       ln ("As a first step, we illustrate unit conversion between " ++ dq ++ "standard formats" ++ dq ++ ",");
       ln "i.e., units that **pint** knows by default.";
       nl;
       ln "In this particular case, we convert exajoule to petawatthours, `EJ/yr -> PWh/yr`.";
       "Note that the timeseries data for other units (CO2 emissions in this case) are not changed."] |}.

Definition cell_05 : cell :=
  {| cell_type := "code";
     source :=
      ["df.convert_unit('EJ/yr', to='PWh/yr').timeseries()"] |}.

Definition cell_06 : cell :=
  {| cell_type := "markdown";
     source :=
      [ln "The **pint** package usually does a good job at parsing orders of magnitude (peta, giga, mega, milli, ...)";
       ln "and their abbreviations (`P`, `G`, `M`, `m`, ...)";
       ln "as well as common units (centimeter, inch, kilometer, mile).";
       ln "It also handles combined units like exajoule per year with various spellings:";
       ln "`PWh/yr`, `PWh / yr` and `petawatthour / year` will all be treated as synonyms by the conversion.";
       ln "The only difference is the format in the resulting **IamDataFrame**.";
       nl;
       "[Read the docs](https://pint.readthedocs.io) for more information!"] |}.

Definition cell_07 : cell :=
  {| cell_type := "code";
     source :=
      ["df.convert_unit('EJ/yr', to='petawatthour / year').timeseries()"] |}.

Definition cell_08 : cell :=
  {| cell_type := "markdown";
     source :=
      [ln "## 2. Use a conversion factor from the shared energy & IAM units repository";
       nl;
       ln "The **pint** package includes standard units, but many units often encountered in the context of energy systems analysis and integrated assessment scenarios are not defined by default.";
       nl;
       ln "Therefore, the [IAMconsortium/units](https://github.com/IAMconsortium/units) repository";
       ln "provides a common location to define such units.";
       ln "The **pyam** package loads these definitions and uses them by default in any unit conversion.";
       nl;
       ln "One entry defined there is 'tons of coal equivalent' (`tce`) as a measure of energy (content).";
       "This is used in the next cell."] |}.

Definition cell_09 : cell :=
  {| cell_type := "code";
     source :=
      ["df.convert_unit('EJ/yr', to='Gtce/yr').timeseries()"] |}.

Definition cell_10 : cell :=
  {| cell_type := "markdown";
     source :=
      [ln "## 3. Use a custom conversion factor";
       nl;
       ln "In some cases, a user needs to specify a custom unit.";
       "The `convert_unit()` function supports that by specifying a `factor` as a keyword argument."] |}.

Definition cell_11 : cell :=
  {| cell_type := "code";
     source :=
      ["df.convert_unit('EJ/yr', to='my_unit', factor=2.3).timeseries()"] |}.

Definition cell_12 : cell :=
  {| cell_type := "markdown";
     source :=
      [ln "## 4. Use contexts to specify conversion metrics";
       nl;
       ln ("There are unit conversions where no " ++ dq ++ "default" ++ dq ++ " factor exists.");
       ln "One such case is calculating the CO2-equivalent of CH4 emissions (or other greenhouse gases),";
       ln ("because the conversion depends on the species' " ++ dq ++ "global warming potential" ++ dq);
       ln "and estimates for that potential are updated regularly in the literature.";
       nl;
       ln ("To facilitate such use cases, **pint** provides " ++ dq ++ "contexts" ++ dq ++ " to allow specifying the appropriate metric.");
       ln "The [IAMconsortium/units](https://github.com/IAMconsortium/units) parametrizes multiple contexts";
       ln "for the conversion of greenhouse gases;";
       ln "see the [emissions module](https://github.com/IAMconsortium/units/blob/master/modules/emissions) for details.";
       nl;
       ln "Performing a unit conversion with context is illustrated below using the IPCC AR5-GWP100 factor;";
       "in this situation, not specifying a context would result in a **pint.DimensionalityError**."] |}.

Definition cell_13 : cell :=
  {| cell_type := "code";
     source :=
      ["df.convert_unit('Mt CH4/yr', to='Mt CO2e/yr', context='AR5GWP100').timeseries()"] |}.

Definition cell_14 : cell :=
  {| cell_type := "markdown";
     source :=
      [ln ("<div class=" ++ dq ++ "alert alert-info" ++ dq ++ ">");
       nl;
       ln "When working with contexts, it is important to track the information which metric was used.";
       ln "This can be done either in the metadata of the resulting data (file)";
       ln "or directly in the unit (or variable) of the timeseries.";
       ln "See an illustration below for a simple workflow.";
       nl;
       "</div>"] |}.

Definition cell_15 : cell :=
  {| cell_type := "code";
     source :=
      [ln "gwp = 'AR5GWP100'";
       ln "target = 'Mt CO2e/yr'";
       ln "(";
       ln "    df.convert_unit('Mt CH4/yr', to=target, context=gwp)";
       ln "    .rename(unit={target: f'{target} ({gwp})'})";
       ln "    .timeseries()";
       ")"] |}.

Definition cell_16 : cell :=
  {| cell_type := "markdown";
     source :=
      [ln "## 5. More advanced use cases with a unit registry";
       nl;
       ln "For more advanced use cases, **pyam** supports two further features: first, it can sometimes be useful";
       ln "to work with the **UnitRegistry** used by default directly. This registry can be accessed";
       "via [pint.get_application_registry()](https://pint.readthedocs.io/en/latest/developers_reference.html#pint.get_application_registry)."] |}.

Definition cell_17 : cell :=
  {| cell_type := "code";
     source :=
      [ln "import pint";
       "pint.get_application_registry()"] |}.

Definition cell_18 : cell :=
  {| cell_type := "markdown";
     source :=
      [ln "In other use cases, it can be helpful to use one (or several) specific registries";
       ln "instead of the default application registry.";
       ln "The `convert_unit()` function therefore allows passing a `registry` as a keyword argument.";
       nl;
       "The specifications below are the same as the example in section 3."] |}.

Definition cell_19 : cell :=
  {| cell_type := "code";
     source :=
      [ln "ureg = pint.UnitRegistry()";
       ln "ureg.define('my_unit = 1 / 2.3 * EJ/yr')";
       nl;
       "df.convert_unit('EJ/yr', to='my_unit', registry=ureg).timeseries()"] |}.

Definition cells : list cell :=
  [cell_00; cell_01; cell_02; cell_03; cell_04; cell_05; cell_06; cell_07; cell_08; cell_09; cell_10; cell_11; cell_12; cell_13; cell_14; cell_15; cell_16; cell_17; cell_18; cell_19].

(** The document metadata: [kernelspec] and [language_info]. *)
Record kernelspec := {
  display_name : string;
  language : string;
  kernel_name : string
}.

Record language_info := {
  codemirror_mode_name : string;
  codemirror_mode_version : Z;
  file_extension : string;
  mimetype : string;
  language_name : string;
  nbconvert_exporter : string;
  pygments_lexer : string;
  version : string
}.

Record notebook := {
  nb_cells : list cell;
  nb_kernelspec : kernelspec;
  nb_language_info : language_info;
  nbformat : Z;
  nbformat_minor : Z
}.

Definition unit_conversion : notebook :=
  {| nb_cells := cells;
     nb_kernelspec :=
       {| display_name := "Python 3";
          language := "python";
          kernel_name := "python3" |};
     nb_language_info :=
       {| codemirror_mode_name := "ipython";
          codemirror_mode_version := 3;
          file_extension := ".py";
          mimetype := "text/x-python";
          language_name := "python";
          nbconvert_exporter := "python";
          pygments_lexer := "ipython3";
          version := "3.8.3" |};
     nbformat := 4;
     nbformat_minor := 2 |}.

(** The code cells, in document order. *)
Definition code_cells (nb : notebook) : list cell :=
    filter (fun c => cell_type c =? "code") (nb_cells nb).

(** The text of a cell: its source lines joined. *)
Definition text (c : cell) : string := String.concat EmptyString (source c).

End Notebook.


(** ** Reading the Python of the code cells

    The code cells hold Python source text.  Their shape is read off
    the token stream: a lexer in the manner of Python's [tokenize]
    (names, numbers, string literals, operators, line ends, comments
    dropped), the grouping of tokens into logical lines (a line end
    inside brackets does not end the statement), and recognisers for the
    call shapes the tutorial uses. *)

Module Python.

Inductive token :=
| NAME (s : string)
| NUMBER (s : string)
| STRING (prefix body : string)
| OP (c : ascii)
| NEWLINE.

Definition token_eqb (a b : token) : bool :=
  match a, b with
  | NAME s, NAME t => s =? t
  | NUMBER s, NUMBER t => s =? t
  | STRING p s, STRING q t => (p =? q) && (s =? t)
  | OP c, OP d => Ascii.eqb c d
  | NEWLINE, NEWLINE => true
  | _, _ => false
  end.

Definition is_name_start (c : ascii) : bool :=
  between "a" "z" c || between "A" "Z" c || Ascii.eqb c "_".

Definition is_name_char (c : ascii) : bool := is_name_start c || is_digit c.

Definition is_quote (c : ascii) : bool :=
  Ascii.eqb c "'" || Ascii.eqb c (ascii_of_nat 34).

Definition is_newline (c : ascii) : bool := Ascii.eqb c (ascii_of_nat 10).

Definition is_backslash (c : ascii) : bool := Ascii.eqb c (ascii_of_nat 92).

Definition is_space (c : ascii) : bool :=
  Ascii.eqb c " " || Ascii.eqb c (ascii_of_nat 9) || Ascii.eqb c (ascii_of_nat 13).

(** What the lexer is in the middle of. *)
Inductive state :=
| Start
| InName (acc : string)
| InNumber (acc : string)
| InString (quote : ascii) (prefix acc : string)
| InEscape (quote : ascii) (prefix acc : string)
| InComment.

(** The token that is complete when the input ends or another token starts. *)
Definition flush (st : state) : list token :=
  match st with
  | InName acc => [NAME acc]
  | InNumber acc => [NUMBER acc]
  | InString _ p acc | InEscape _ p acc => [STRING p acc]
  | Start | InComment => []
  end.

(** A character met between tokens. *)
Definition start (c : ascii) : state * list token :=
  if is_name_start c then (InName (String c EmptyString), [])
  else if is_digit c then (InNumber (String c EmptyString), [])
  else if is_quote c then (InString c EmptyString EmptyString, [])
  else if Ascii.eqb c "#" then (InComment, [])
  else if is_newline c then (Start, [NEWLINE])
  else if is_space c then (Start, [])
  else (Start, [OP c]).

Fixpoint lex (st : state) (s : string) : list token :=
  match s with
  | EmptyString => flush st
  | String c s' =>
    match st with
    | Start => let (st', out) := start c in out ++ lex st' s'
    | InName acc =>
      if is_name_char c then lex (InName (snoc acc c)) s'
      else if is_quote c then lex (InString c acc EmptyString) s'
      else let (st', out) := start c in NAME acc :: out ++ lex st' s'
    | InNumber acc =>
      if is_name_char c || Ascii.eqb c "." then lex (InNumber (snoc acc c)) s'
      else let (st', out) := start c in NUMBER acc :: out ++ lex st' s'
    | InString q p acc =>
      if Ascii.eqb c q then STRING p acc :: lex Start s'
      else if is_backslash c then lex (InEscape q p (snoc acc c)) s'
      else lex (InString q p (snoc acc c)) s'
    | InEscape q p acc => lex (InString q p (snoc acc c)) s'
    | InComment =>
      if is_newline c then NEWLINE :: lex Start s' else lex InComment s'
    end
  end.

Definition tokenize (s : string) : list token := lex Start s.

Definition opening (c : ascii) : bool :=
  Ascii.eqb c "(" || Ascii.eqb c "[" || Ascii.eqb c "{".

Definition closing (c : ascii) : bool :=
  Ascii.eqb c ")" || Ascii.eqb c "]" || Ascii.eqb c "}".

Definition push_line (cur : list token) (ls : list (list token)) : list (list token) :=
  match cur with [] => ls | _ => cur :: ls end.

(** Logical lines: a NEWLINE ends the statement only outside brackets;
    blank lines give no statement. *)
Fixpoint logical_lines (depth : nat) (cur : list token) (ts : list token)
  : list (list token) :=
  match ts with
  | [] => push_line cur []
  | NEWLINE :: ts' =>
    match depth with
    | O => push_line cur (logical_lines O [] ts')
    | S _ => logical_lines depth cur ts'
    end
  | OP c :: ts' =>
    let depth' := if opening c then S depth
                  else if closing c then Nat.pred depth else depth in
    logical_lines depth' (cur ++ [OP c]) ts'
  | t :: ts' => logical_lines depth (cur ++ [t]) ts'
  end.

(** The statements of a code cell. *)
Definition statements (c : Notebook.cell) : list (list token) :=
  logical_lines O [] (tokenize (Notebook.text c)).

(** Keywords that start or belong to loops, branches, handlers, function
    and class bodies, and the expression forms that choose what is
    evaluated. *)
Definition control_keywords : list string :=
  ["if"; "elif"; "else"; "for"; "while"; "break"; "continue"; "try";
   "except"; "finally"; "raise"; "with"; "def"; "class"; "lambda";
   "return"; "yield"; "async"; "await"; "assert"; "match"; "case";
   "and"; "or"].

Definition is_control (t : token) : bool :=
  match t with
  | NAME s => existsb (String.eqb s) control_keywords
  | _ => false
  end.

Definition uses_control_flow (c : Notebook.cell) : bool :=
  existsb (existsb is_control) (statements c).

(** [starts_with pat ts]: the tokens [pat] are a prefix of [ts]. *)
Fixpoint starts_with (pat ts : list token) : bool :=
  match pat, ts with
  | [], _ => true
  | p :: pat', t :: ts' => token_eqb p t && starts_with pat' ts'
  | _ :: _, [] => false
  end.

(** Number of places of [ts] at which [pat] starts. *)
Fixpoint occurrences (pat ts : list token) : nat :=
  match ts with
  | [] => O
  | _ :: ts' => (if starts_with pat ts then 1 else 0) + occurrences pat ts'
  end.

(** The tokens of a call [obj.attr(]. *)
Definition call_of (obj attr : string) : list token :=
  [NAME obj; OP "."; NAME attr; OP "("].

(** The tokens of a method call [.m(] on whatever comes before. *)
Definition method_call (m : string) : list token :=
  [OP "."; NAME m; OP "("].

Definition cell_occurrences (pat : list token) (c : Notebook.cell) : nat :=
  list_sum (map (occurrences pat) (statements c)).

(** After an opening bracket: the tokens that follow its closing one. *)
Fixpoint skip_group (depth : nat) (ts : list token) : option (list token) :=
  match ts with
  | [] => None
  | OP c :: ts' =>
    if opening c then skip_group (S depth) ts'
    else if closing c then
      match depth with
      | O => Some ts'
      | S d => skip_group d ts'
      end
    else skip_group depth ts'
  | _ :: ts' => skip_group depth ts'
  end.

(** An expression wholly wrapped in one pair of parentheses, unwrapped. *)
Definition strip_parens (ts : list token) : list token :=
  match ts with
  | OP c :: ts' =>
    if Ascii.eqb c "(" then
      match skip_group O ts' with
      | Some [] => removelast ts'
      | _ => ts
      end
    else ts
  | _ => ts
  end.

(** Consume [.m( ... )] at the head of [ts]. *)
Definition method (m : string) (ts : list token) : option (list token) :=
  if starts_with (method_call m) ts then skip_group O (skipn 3 ts) else None.

(** The statement is [x.convert_unit(...).timeseries()] or
    [x.convert_unit(...).rename(...).timeseries()], possibly in
    parentheses. *)
Definition is_conversion_display (stmt : list token) : bool :=
  match strip_parens stmt with
  | NAME _ :: rest =>
    match method "convert_unit" rest with
    | Some rest1 =>
      let rest2 := match method "rename" rest1 with
                   | Some r => r
                   | None => rest1
                   end in
      starts_with rest2 [OP "."; NAME "timeseries"; OP "("; OP ")"]
      && (length rest2 =? 4)%nat
    | None => false
    end
  | _ => false
  end.

(** A notebook shows the value of the last statement of a cell. *)
Definition displayed (c : Notebook.cell) : list token :=
  last (statements c) [].

Definition displays_conversion (c : Notebook.cell) : bool :=
  is_conversion_display (displayed c).

(** The cell builds the data table and the IamDataFrame. *)
Definition constructs_frames (c : Notebook.cell) : bool :=
  (0 <? cell_occurrences (call_of "pd" "DataFrame") c)%nat
  && (0 <? cell_occurrences (call_of "pyam" "IamDataFrame") c)%nat.

(** The elements that follow the first one satisfying [p]. *)
Fixpoint after_first {A : Type} (p : A -> bool) (l : list A) : list A :=
  match l with
  | [] => []
  | x :: l' => if p x then l' else after_first p l'
  end.

(** The code cells that come after the one constructing the frames. *)
Definition conversion_cells (nb : Notebook.notebook) : list Notebook.cell :=
  after_first constructs_frames (Notebook.code_cells nb).

(** Total number of calls of [obj.attr(...)] in the code cells. *)
Definition calls_in_notebook (obj attr : string) (nb : Notebook.notebook) : nat :=
  list_sum (map (cell_occurrences (call_of obj attr)) (Notebook.code_cells nb)).

(** The linear-script reading of the notebook: frames constructed once,
    every later code cell a conversion shown through [timeseries()], and
    no control flow anywhere. *)
Definition linear_conversion_script (nb : Notebook.notebook) : Prop :=
  calls_in_notebook "pd" "DataFrame" nb = 1%nat
  /\ calls_in_notebook "pyam" "IamDataFrame" nb = 1%nat
  /\ Forall (fun c => displays_conversion c = true) (conversion_cells nb)
  /\ Forall (fun c => uses_control_flow c = false) (Notebook.code_cells nb).

(** The cell that only shows the application registry of pint. *)
Definition shows_registry (c : Notebook.cell) : bool :=
  match statements c with
  | [s1; s2] =>
    starts_with [NAME "import"; NAME "pint"] s1 && (length s1 =? 2)%nat
    && starts_with (call_of "pint" "get_application_registry" ++ [OP ")"]) s2
    && (length s2 =? 5)%nat
  | _ => false
  end.

End Python.

(** ** The timeseries table of the tutorial

    The notebook builds one table, [UNIT_DF], makes an IamDataFrame
    [df] from it and applies [convert_unit] to [df].  [IamDataFrame] and
    its methods belong to pyam and are not part of the material; only
    the table is embedded, as the rows that the data cell writes. *)

Module Units.

Section Frame.

Variable num : Type.

(** Modelled from the spec: a row of the timeseries table of an
    IamDataFrame (the class is not under src/), numeric values keyed by
    model, scenario, region, variable, unit and year. *)
Record row := {
  model : string;
  scenario : string;
  region : string;
  variable : string;
  unit : string;
  values : list (Z * num)
}.

(** Modelled from the spec: the IamDataFrame, as the rows that
    [timeseries()] shows. *)
Definition IamDataFrame := list row.

End Frame.

Arguments model {num} _.
Arguments scenario {num} _.
Arguments region {num} _.
Arguments variable {num} _.
Arguments unit {num} _.
Arguments values {num} _.

(** The table of the tutorial ([UNIT_DF], from which [df] is made), its
    decimal literals read as exact rationals.  The index columns are
    [pyam.IAMC_IDX]; the year columns are 2010, 2030, 2050 and 2100. *)
Definition UNIT_DF : IamDataFrame Q :=
  [ {| model := "MESSAGEix-GLOBIOM 1.0"; scenario := "CD-LINKS_NPi";
       region := "World"; variable := "Primary Energy"; unit := "EJ/yr";
       values := [(2010%Z, 500.74%Q); (2030%Z, 636.79%Q);
                  (2050%Z, 809.93%Q); (2100%Z, 1284.78%Q)] |};
    {| model := "MESSAGEix-GLOBIOM 1.0"; scenario := "CD-LINKS_NPi";
       region := "World"; variable := "Emissions|CH4"; unit := "Mt CH4/yr";
       values := [(2010%Z, 327.92%Q); (2030%Z, 354.35%Q);
                  (2050%Z, 377.88%Q); (2100%Z, 403.98%Q)] |} ].

End Units.

(** ** Names bound and read by the statements of the notebook

    Run from the top, a statement may read only names that an earlier
    statement has bound.  The statements of the tutorial bind a name by
    [import m], [import m as a] or [x = ...], and read the names that
    stand on their own: not an attribute after a dot, not the keyword of
    a keyword argument.  The tutorial uses no builtin name. *)

Module Scope.

Import Python.

Definition is_op (c : ascii) (t : token) : bool :=
  match t with
  | OP d => Ascii.eqb c d
  | _ => false
  end.

Definition is_name (s : string) (t : token) : bool :=
  match t with
  | NAME n => n =? s
  | _ => false
  end.

(** The texts between braces in the body of an f-string. *)
Fixpoint fstring_names (inside : option string) (s : string) : list string :=
  match s with
  | EmptyString => []
  | String c s' =>
    match inside with
    | None =>
      if Ascii.eqb c "{" then fstring_names (Some EmptyString) s'
      else fstring_names None s'
    | Some acc =>
      if Ascii.eqb c "}" then acc :: fstring_names None s'
      else fstring_names (Some (snoc acc c)) s'
    end
  end.

(** [name =] inside brackets, and not [name ==], is a keyword argument. *)
Definition is_keyword_argument (depth : nat) (rest : list token) : bool :=
  (0 <? depth)%nat
  && match rest with
     | eq1 :: after =>
       is_op "=" eq1
       && negb (match after with eq2 :: _ => is_op "=" eq2 | [] => false end)
     | [] => false
     end.

(** The names an expression reads. *)
Fixpoint reads (after_dot : bool) (depth : nat) (ts : list token) : list string :=
  match ts with
  | [] => []
  | NAME s :: rest =>
    (if after_dot || is_keyword_argument depth rest then [] else [s])
    ++ reads false depth rest
  | OP c :: rest =>
    let depth' := if opening c then S depth
                  else if closing c then Nat.pred depth else depth in
    reads (Ascii.eqb c ".") depth' rest
  | STRING p body :: rest =>
    (if contains "f" p || contains "F" p then fstring_names None body else [])
    ++ reads false depth rest
  | _ :: rest => reads false depth rest
  end.

Definition is_import (stmt : list token) : bool :=
  match stmt with
  | t :: _ => is_name "import" t
  | [] => false
  end.

(** [x = ...] with a single name on the left. *)
Definition assigned (stmt : list token) : option string :=
  match stmt with
  | NAME x :: eq1 :: rest =>
    if is_op "=" eq1
       && negb (match rest with eq2 :: _ => is_op "=" eq2 | [] => false end)
    then Some x else None
  | _ => None
  end.

(** The names a statement binds. *)
Definition binds (stmt : list token) : list string :=
  if is_import stmt then
    match stmt with
    | [_; NAME m] => [m]
    | [_; NAME _; kw; NAME a] => if is_name "as" kw then [a] else []
    | _ => []
    end
  else
    match assigned stmt with
    | Some x => [x]
    | None => []
    end.

(** The names a statement reads. *)
Definition reads_of (stmt : list token) : list string :=
  if is_import stmt then []
  else
    match assigned stmt with
    | Some _ => reads false 0 (skipn 2 stmt)
    | None => reads false 0 stmt
    end.

Definition bound_in (bound : list string) (n : string) : bool :=
  existsb (String.eqb n) bound.

(** Run the statements in order from the names [bound]: the names bound
    at the end, or [None] when a statement reads a name not yet bound. *)
Fixpoint run (bound : list string) (stmts : list (list token)) : option (list string) :=
  match stmts with
  | [] => Some bound
  | s :: rest =>
    if forallb (bound_in bound) (reads_of s)
    then run (binds s ++ bound) rest
    else None
  end.

(** The statements of some cells, in order. *)
Definition script (cells : list Notebook.cell) : list (list token) :=
  flat_map statements cells.

Definition runs_top_down (cells : list Notebook.cell) : bool :=
  match run [] (script cells) with
  | Some _ => true
  | None => false
  end.



End Scope.

(** ** The data and the calls written in the code cells *)

Module Calls.

Import Python.

(** Modelled from the spec: the constant [pyam.IAMC_IDX] (pyam is not
    under src/), the index columns of the timeseries table: model,
    scenario, region, variable, unit. *)
Definition IAMC_IDX : list string :=
  ["model"; "scenario"; "region"; "variable"; "unit"].

Inductive literal :=
| LStr (s : string)
| LNum (s : string).

(** The rows of a list of lists of literals, and the tokens after it. *)
Fixpoint rows (depth : nat) (cur : list literal) (ts : list token)
  : list (list literal) * list token :=
  match ts with
  | [] => ([], [])
  | OP c :: rest =>
    if Ascii.eqb c "[" then rows (S depth) [] rest
    else if Ascii.eqb c "]" then
      match depth with
      | 2%nat => let (rs, tl) := rows 1 [] rest in (cur :: rs, tl)
      | _ => ([], rest)
      end
    else rows depth cur rest
  | STRING _ s :: rest => rows depth (cur ++ [LStr s]) rest
  | NUMBER s :: rest => rows depth (cur ++ [LNum s]) rest
  | _ :: rest => rows depth cur rest
  end.

(** The value of a run of decimal digits. *)
Fixpoint digits (acc : Z) (s : string) : option Z :=
  match s with
  | EmptyString => Some acc
  | String c s' =>
    if is_digit c
    then digits (10 * acc + Z.of_nat (nat_of_ascii c - 48)) s'
    else None
  end.

(** A decimal literal [ddd] or [ddd.ddd] as the rational it writes. *)
Fixpoint decimal (acc : Z) (s : string) : option Q :=
  match s with
  | EmptyString => Some (Qmake acc 1)
  | String c s' =>
    if Ascii.eqb c "." then
      match digits acc s' with
      | Some n => Some (Qmake n (Pos.pow 10 (Pos.of_nat (String.length s'))))
      | None => None
      end
    else if is_digit c
    then decimal (10 * acc + Z.of_nat (nat_of_ascii c - 48)) s'
    else None
  end.

Fixpoint numbers (ts : list token) : list string :=
  match ts with
  | NUMBER s :: rest => s :: numbers rest
  | OP c :: rest => if Ascii.eqb c "]" then [] else numbers rest
  | _ :: rest => numbers rest
  | [] => []
  end.

(** [all f l]: the results of [f] on [l] when every one is defined. *)
Fixpoint all {A B : Type} (f : A -> option B) (l : list A) : option (list B) :=
  match l with
  | [] => Some []
  | x :: l' =>
    match f x, all f l' with
    | Some y, Some ys => Some (y :: ys)
    | _, _ => None
    end
  end.

Definition as_string (l : literal) : option string :=
  match l with
  | LStr s => Some s
  | LNum _ => None
  end.

Definition as_number (l : literal) : option Q :=
  match l with
  | LNum s => decimal 0 s
  | LStr _ => None
  end.

(** A row of literals under the columns [IAMC_IDX + years]. *)
Definition make_row (years : list Z) (lits : list literal) : option (Units.row Q) :=
  match all as_string (firstn (length IAMC_IDX) lits),
        all as_number (skipn (length IAMC_IDX) lits) with
  | Some [m; s; r; v; u], Some xs =>
    if (length xs =? length years)%nat then
      Some {| Units.model := m; Units.scenario := s; Units.region := r;
              Units.variable := v; Units.unit := u;
              Units.values := combine years xs |}
    else None
  | _, _ => None
  end.

(** The table written by a statement
    [x = pd.DataFrame([[...], ...], columns=pyam.IAMC_IDX + [...])]. *)
Definition parse_frame (stmt : list token) : option (Units.IamDataFrame Q) :=
  if starts_with (call_of "pd" "DataFrame") (skipn 2 stmt) then
    let (rs, tl) := rows 0 [] (skipn 6 stmt) in
    if starts_with [OP ","; NAME "columns"; OP "="; NAME "pyam"; OP ".";
                    NAME "IAMC_IDX"; OP "+"; OP "["] tl
    then
      match all (digits 0) (numbers (skipn 8 tl)) with
      | Some years => all (make_row years) rs
      | None => None
      end
    else None
  else None.

(** The tokens up to the bracket that closes the one already opened. *)
Fixpoint group (depth : nat) (ts : list token) : list token :=
  match ts with
  | [] => []
  | OP c :: ts' =>
    if opening c then OP c :: group (S depth) ts'
    else if closing c then
      match depth with
      | O => []
      | S d => OP c :: group d ts'
      end
    else OP c :: group depth ts'
  | t :: ts' => t :: group depth ts'
  end.

(** The arguments of a call: the tokens between the commas that are not
    inside inner brackets. *)
Fixpoint arguments (depth : nat) (cur : list token) (ts : list token)
  : list (list token) :=
  match ts with
  | [] => push_line cur []
  | OP c :: ts' =>
    if Ascii.eqb c "," && (depth =? 0)%nat
    then push_line cur (arguments depth [] ts')
    else
      let depth' := if opening c then S depth
                    else if closing c then Nat.pred depth else depth in
      arguments depth' (cur ++ [OP c]) ts'
  | t :: ts' => arguments depth (cur ++ [t]) ts'
  end.

(** A value written as an argument. *)
Inductive value :=
| Text (s : string)
| Num (s : string)
| Name (x : string).

(** The string literals assigned to names by the statements of a cell. *)
Fixpoint constants (stmts : list (list token)) : list (string * string) :=
  match stmts with
  | [NAME x; OP _; STRING _ s] :: rest => (x, s) :: constants rest
  | _ :: rest => constants rest
  | [] => []
  end.

Fixpoint lookup (x : string) (env : list (string * string)) : option string :=
  match env with
  | [] => None
  | (y, s) :: env' => if y =? x then Some s else lookup x env'
  end.

(** A single token as a value; a name that the cell has assigned a
    string literal stands for that string. *)
Definition value_of (env : list (string * string)) (ts : list token) : option value :=
  match ts with
  | [STRING _ s] => Some (Text s)
  | [NUMBER s] => Some (Num s)
  | [NAME x] =>
    match lookup x env with
    | Some s => Some (Text s)
    | None => Some (Name x)
    end
  | _ => None
  end.

(** An argument as (keyword, value); a positional one has no keyword. *)
Definition argument (env : list (string * string)) (ts : list token)
  : option (option string * value) :=
  match ts with
  | NAME k :: OP c :: rest =>
    if Ascii.eqb c "=" then option_map (pair (Some k)) (value_of env rest)
    else None
  | _ => option_map (pair None) (value_of env ts)
  end.

(** The arguments of the [convert_unit] call that a cell displays. *)
Definition convert_unit_call (c : Notebook.cell)
  : option (list (option string * value)) :=
  match strip_parens (displayed c) with
  | NAME _ :: rest =>
    if starts_with (method_call "convert_unit") rest
    then all (argument (constants (statements c)))
             (arguments 0 [] (group 0 (skipn 3 rest)))
    else None
  | _ => None
  end.

(** The argument passed under the keyword [k], or as the first
    positional argument when [k] is [None]. *)
Fixpoint passed (k : option string) (args : list (option string * value)) : option value :=
  match args with
  | [] => None
  | (k', v) :: args' =>
    match k, k' with
    | None, None => Some v
    | Some a, Some b => if a =? b then Some v else passed k args'
    | _, _ => passed k args'
    end
  end.

(** The text of some tokens written without spaces. *)
Fixpoint spell (ts : list token) : string :=
  match ts with
  | [] => EmptyString
  | NAME s :: rest | NUMBER s :: rest | STRING _ s :: rest => (s ++ spell rest)%string
  | OP c :: rest => String c (spell rest)
  | NEWLINE :: rest => spell rest
  end.

(** A unit definition [name = a / b * unit] given to a registry: the
    unit defined, the number [a / b] and the unit it is defined by. *)
Record definition := {
  defined : string;
  scale : Q;
  reference : string
}.

Definition parse_definition (s : string) : option definition :=
  match tokenize s with
  | NAME n :: OP e :: NUMBER a :: OP d :: NUMBER b :: OP m :: unit =>
    if Ascii.eqb e "=" && Ascii.eqb d "/" && Ascii.eqb m "*" then
      match decimal 0 a, decimal 0 b with
      | Some x, Some y =>
        Some {| defined := n; scale := Qred (x / y); reference := spell unit |}
      | _, _ => None
      end
    else None
  | _ => None
  end.

(** The statements [r.define('...')] of a cell: the registry [r] and the
    definition text. *)
Fixpoint definitions (stmts : list (list token)) : list (string * string) :=
  match stmts with
  | [NAME r; OP _; NAME f; OP _; STRING _ s; OP _] :: rest =>
    if f =? "define" then (r, s) :: definitions rest else definitions rest
  | _ :: rest => definitions rest
  | [] => []
  end.

Definition units_of (df : Units.IamDataFrame Q) : list string :=
  map Units.unit df.

Definition is_unit_of (df : Units.IamDataFrame Q) (v : option value) : bool :=
  match v with
  | Some (Text u) => existsb (String.eqb u) (units_of df)
  | _ => false
  end.

Definition is_new_unit (df : Units.IamDataFrame Q) (v : option value) : bool :=
  match v with
  | Some (Text u) => negb (existsb (String.eqb u) (units_of df))
  | _ => false
  end.

End Calls.

(** ** GitHub Actions workflows

    A workflow file is a YAML mapping: a name, the events that trigger
    it ([on:]) and jobs; a job has a strategy matrix and steps.  The
    records follow the keys of the files.  What the runner does with them
    is written out as functions: a schedule fires at the times its cron
    expression matches, a branch filter is a glob pattern, a matrix
    expands to one job per combination of its values, and a step with an
    [if:] condition runs in a combination when the condition holds. *)

Module Actions.

(** *** Conditions *)

(** The expressions that occur in the [if:] keys, inside [${{ }}]. *)
Inductive expr :=
| Matrix (key : string)
| Lit (s : string)
| Eq (a b : expr)
| Ne (a b : expr)
| And (a b : expr).

Inductive value :=
| Null
| Str (s : string)
| Bool (b : bool).

(** One combination of the matrix: a value for each key. *)
Definition combination := list (string * string).

Fixpoint lookup (k : string) (c : combination) : option string :=
  match c with
  | [] => None
  | (k', v) :: c' => if k' =? k then Some v else lookup k c'
  end.

Definition lower (c : ascii) : ascii :=
  if between "A" "Z" c then ascii_of_nat (nat_of_ascii c + 32) else c.

Fixpoint lowercase (s : string) : string :=
  match s with
  | EmptyString => EmptyString
  | String c s' => String (lower c) (lowercase s')
  end.

(** Equality of two values of the same type; strings are compared
    ignoring case.  Values of different types (which the runner first
    coerces to numbers) are not compared here. *)
Definition value_eqb (a b : value) : option bool :=
  match a, b with
  | Null, Null => Some true
  | Str s, Str t => Some (lowercase s =? lowercase t)
  | Bool x, Bool y => Some (Bool.eqb x y)
  | _, _ => None
  end.

(** [false], the empty string and [null] count as false. *)
Definition truthy (v : value) : bool :=
  match v with
  | Null => false
  | Str s => negb (s =? EmptyString)
  | Bool b => b
  end.

Fixpoint eval (c : combination) (e : expr) : option value :=
  match e with
  | Matrix k =>
    match lookup k c with
    | Some v => Some (Str v)
    | None => Some Null
    end
  | Lit s => Some (Str s)
  | Eq a b =>
    match eval c a, eval c b with
    | Some x, Some y => option_map Bool (value_eqb x y)
    | _, _ => None
    end
  | Ne a b =>
    match eval c a, eval c b with
    | Some x, Some y => option_map (fun r => Bool (negb r)) (value_eqb x y)
    | _, _ => None
    end
  | And a b =>
    match eval c a with
    | Some x => if truthy x then eval c b else Some x
    | None => None
    end
  end.

(** *** Steps, jobs, workflows *)

Record step := {
  name : option string;
  cond : option expr;
  uses : option string;
  with_ : list (string * string);
  run : option string
}.

Record job := {
  matrix : list (string * list string);
  fail_fast : bool;
  runs_on : string;
  job_name : string;
  steps : list step
}.

Inductive event :=
| schedule (cron : list string)
| push (branches : list string)
| pull_request (branches : list string).

Record workflow := {
  wf_name : string;
  on : list event;
  jobs : list (string * job)
}.

(** *** The matrix *)

(** One combination for every choice of a value per key. *)
Fixpoint combinations (m : list (string * list string)) : list combination :=
  match m with
  | [] => [[]]
  | (k, vs) :: m' =>
    flat_map (fun v => map (cons (k, v)) (combinations m')) vs
  end.

(** A step without condition runs (the steps before it having succeeded);
    one with a condition runs when the condition evaluates to a value
    that counts as true. *)
Definition step_runs (c : combination) (s : step) : bool :=
  match cond s with
  | None => true
  | Some e =>
    match eval c e with
    | Some v => truthy v
    | None => false
    end
  end.

Definition executed_steps (j : job) (c : combination) : list step :=
  filter (step_runs c) (steps j).

(** The command of a step, empty for a step that uses an action. *)
Definition command (s : step) : string :=
  match run s with
  | Some r => r
  | None => EmptyString
  end.

Definition runs_command (pat : string) (s : step) : bool := contains pat (command s).

Definition uses_action (a : string) (s : step) : bool :=
  match uses s with
  | Some u => u =? a
  | None => false
  end.

(** The steps that invoke the test suite, install the package with its
    dependencies, and build the documentation. *)
Definition is_test_step (s : step) : bool := runs_command "pytest tests" s.
Definition is_install_step (s : step) : bool := runs_command "pip install" s.
Definition is_docs_step (s : step) : bool := runs_command "make html" s.
Definition is_coverage_upload (s : step) : bool :=
  uses_action "codecov/codecov-action@v1" s.

(** What a step does for the pipeline. *)
Inductive duty :=
| Install
| Test
| Docs
| Coverage.

Definition duties_of (s : step) : list duty :=
  (if is_install_step s then [Install] else [])
  ++ (if is_test_step s then [Test] else [])
  ++ (if is_docs_step s then [Docs] else [])
  ++ (if is_coverage_upload s then [Coverage] else []).

(** The duties carried out, in order, by the job of one combination. *)
Definition duties (j : job) (c : combination) : list duty :=
  flat_map duties_of (executed_steps j c).

(** The jobs a workflow starts, one per job and matrix combination, each
    with the duties it carries out. *)
Definition workflow_runs (w : workflow) : list (combination * list duty) :=
  flat_map (fun nj => map (fun c => (c, duties (snd nj) c))
                          (combinations (matrix (snd nj))))
           (jobs w).

(** *** Schedules *)

Inductive field :=
| Any
| At (n : nat).

Record cron := {
  minute : field;
  hour : field;
  day_of_month : field;
  month : field;
  day_of_week : field
}.

Fixpoint split_on (sep : ascii) (cur : string) (s : string) : list string :=
  match s with
  | EmptyString => [cur]
  | String c s' =>
    if Ascii.eqb c sep then cur :: split_on sep EmptyString s'
    else split_on sep (snoc cur c) s'
  end.

Fixpoint number (acc : nat) (s : string) : option nat :=
  match s with
  | EmptyString => Some acc
  | String c s' =>
    if is_digit c
    then number (10 * acc + (nat_of_ascii c - 48)) s'
    else None
  end.

Fixpoint index_of (x : string) (l : list string) (i : nat) : option nat :=
  match l with
  | [] => None
  | y :: l' => if y =? x then Some i else index_of x l' (S i)
  end.

Definition day_names : list string :=
  ["SUN"; "MON"; "TUE"; "WED"; "THU"; "FRI"; "SAT"].

Definition month_names : list string :=
  ["JAN"; "FEB"; "MAR"; "APR"; "MAY"; "JUN";
   "JUL"; "AUG"; "SEP"; "OCT"; "NOV"; "DEC"].

(** A field is [*], a number, or (for months and week days) a name;
    [names] are the names and [base] the number of the first one. *)
Definition parse_field (names : list string) (base : nat) (s : string) : option field :=
  if s =? "*" then Some Any
  else match s with
       | EmptyString => None
       | _ =>
         match number 0 s with
         | Some n => Some (At n)
         | None => option_map At (index_of s names base)
         end
       end.

Definition parse_cron (s : string) : option cron :=
  match split_on " " EmptyString s with
  | [mi; ho; dm; mo; dw] =>
    match parse_field [] 0 mi, parse_field [] 0 ho, parse_field [] 0 dm,
          parse_field month_names 1 mo, parse_field day_names 0 dw with
    | Some a, Some b, Some c, Some d, Some e =>
      Some {| minute := a; hour := b; day_of_month := c;
              month := d; day_of_week := e |}
    | _, _, _, _, _ => None
    end
  | _ => None
  end.

(** A minute of the calendar (UTC); week days count from Sunday = 0. *)
Record time := {
  t_minute : nat;
  t_hour : nat;
  t_day : nat;
  t_month : nat;
  t_weekday : nat
}.

Definition field_matches (f : field) (n : nat) : bool :=
  match f with
  | Any => true
  | At m => (n =? m)%nat
  end.

(** The day matches when both day fields do, except that with both of
    them restricted either one suffices. *)
Definition day_matches (c : cron) (t : time) : bool :=
  match day_of_month c, day_of_week c with
  | At d, At w => (t_day t =? d)%nat || (t_weekday t =? w)%nat
  | dm, dw => field_matches dm (t_day t) && field_matches dw (t_weekday t)
  end.

Definition cron_matches (c : cron) (t : time) : bool :=
  field_matches (minute c) (t_minute t)
  && field_matches (hour c) (t_hour t)
  && field_matches (month c) (t_month t)
  && day_matches c t.

Definition fires_at (s : string) (t : time) : bool :=
  match parse_cron s with
  | Some c => cron_matches c t
  | None => false
  end.

(** The minutes of a week as (week day, hour, minute). *)
Definition week : list (nat * (nat * nat)) :=
  list_prod (seq 0 7) (list_prod (seq 0 24) (seq 0 60)).

(** The minute of a week, the calendar date of each week day given by
    [date] as (day of month, month). *)
Definition at_slot (date : nat -> nat * nat) (p : nat * (nat * nat)) : time :=
  {| t_minute := snd (snd p);
     t_hour := fst (snd p);
     t_day := fst (date (fst p));
     t_month := snd (date (fst p));
     t_weekday := fst p |}.

(** *** Branch filters *)

Inductive glob :=
| GChar (c : ascii)
| GStar
| GStarStar.

(** [*] stands for any characters but [/], [**] for any characters. *)
Fixpoint parse_glob (s : string) : list glob :=
  match s with
  | EmptyString => []
  | String c s' =>
    if Ascii.eqb c "*" then
      match s' with
      | String d s'' =>
        if Ascii.eqb d "*" then GStarStar :: parse_glob s''
        else GStar :: parse_glob s'
      | EmptyString => [GStar]
      end
    else GChar c :: parse_glob s'
  end.

Fixpoint glob_match (p : list glob) : string -> bool :=
  match p with
  | [] => fun s => match s with EmptyString => true | _ => false end
  | GChar c :: p' =>
    fun s => match s with
             | String d s' => Ascii.eqb c d && glob_match p' s'
             | EmptyString => false
             end
  | GStar :: p' =>
    fix star (s : string) : bool :=
      glob_match p' s
      || match s with
         | String d s' => negb (Ascii.eqb d "/") && star s'
         | EmptyString => false
         end
  | GStarStar :: p' =>
    fix starstar (s : string) : bool :=
      glob_match p' s
      || match s with
         | String _ s' => starstar s'
         | EmptyString => false
         end
  end.

Definition branch_matches (pattern branch : string) : bool :=
  glob_match (parse_glob pattern) branch.

(** *** What triggers a workflow *)

(** Something that happens: a minute of the clock passes, a branch is
    pushed to, a pull request against a base branch is opened or
    updated. *)
Inductive occurrence :=
| Tick (t : time)
| Pushed (branch : string)
| PullRequested (base : string).

Definition triggered_by (o : occurrence) (e : event) : bool :=
  match e, o with
  | schedule crons, Tick t => existsb (fun s => fires_at s t) crons
  | push bs, Pushed b => existsb (fun p => branch_matches p b) bs
  | pull_request bs, PullRequested b => existsb (fun p => branch_matches p b) bs
  | _, _ => false
  end.

Definition triggers (w : workflow) (o : occurrence) : bool :=
  existsb (triggered_by o) (on w).

(** The keys under [on:]. *)
Definition event_kinds (w : workflow) : list string :=
  map (fun e => match e with
                | schedule _ => "schedule"
                | push _ => "push"
                | pull_request _ => "pull_request"
                end) (on w).

End Actions.

(** ** The two workflow files *)

Module Workflows.

Import Actions.

Definition checkout : step :=
  {| name := None; cond := None;
     uses := Some "actions/checkout@v3"; with_ := []; run := None |}.

Definition setup_python : step :=
  {| name := Some "Set up Python ${{ matrix.python-version }}"; cond := None;
     uses := Some "actions/setup-python@v4";
     with_ := [("python-version", "${{ matrix.python-version }}")];
     run := None |}.

(** *** nightly *)

Definition nightly_install_pandoc : step :=
  {| name := Some "Install Pandoc"; cond := None;
     uses := Some "r-lib/actions/setup-pandoc@v1"; with_ := []; run := None |}.

Definition nightly_install : step :=
  {| name := Some "Install dependencies and package"; cond := None;
     uses := None; with_ := [];
     run := Some (ln "python -m pip install --upgrade pip"
                  ++ ln "pip install -e .[tests,optional_plotting,optional_io_formats,tutorials,docs]")%string |}.

Definition nightly_test : step :=
  {| name := Some "Test with pytest (including Matplotlib)"; cond := None;
     uses := None; with_ := [];
     run := Some (ln "pytest tests --mpl") |}.

Definition nightly_docs : step :=
  {| name := Some "Build the docs"; cond := None;
     uses := None; with_ := [];
     run := Some (ln "cd doc" ++ ln "make html" ++ ln "cd ..")%string |}.

Definition nightly_job : job :=
  {| matrix := [("os", ["ubuntu-latest"]); ("python-version", ["3.10"])];
     fail_fast := false;
     runs_on := "${{ matrix.os }}";
     job_name := "${{ matrix.os }} py${{ matrix.python-version }}";
     steps := [checkout; setup_python; nightly_install_pandoc;
               nightly_install; nightly_test; nightly_docs] |}.

Definition nightly : workflow :=
  {| wf_name := "nightly";
     on := [schedule ["0 5 * * TUE"]];
     jobs := [("pytest", nightly_job)] |}.

(** *** pytest *)

Definition pytest_install : step :=
  {| name := Some "Install dependencies and package"; cond := None;
     uses := None; with_ := [];
     run := Some "pip install .[tests,optional_plotting,optional_io_formats,tutorials]" |}.

Definition pytest_test : step :=
  {| name := Some "Test with pytest";
     cond := Some (Ne (Matrix "python-version") (Lit "3.10"));
     uses := None; with_ := [];
     run := Some "pytest tests" |}.

Definition pytest_test_coverage : step :=
  {| name := Some "Test with pytest including Matplotlib & Codecov";
     cond := Some (Eq (Matrix "python-version") (Lit "3.10"));
     uses := None; with_ := [];
     run := Some "pytest tests --mpl --cov=./ --cov-report=xml" |}.

Definition pytest_upload : step :=
  {| name := Some "Upload coverage report to Codecov";
     cond := Some (And (Eq (Matrix "os") (Lit "ubuntu-latest"))
                       (Eq (Matrix "python-version") (Lit "3.10")));
     uses := Some "codecov/codecov-action@v1";
     with_ := [("file", "./coverage.xml");
               ("env_vars", "${{ matrix.os }} py${{ matrix.python-version }}")];
     run := None |}.

Definition pytest_job : job :=
  {| matrix := [("os", ["macos-latest"; "ubuntu-latest"; "windows-latest"]);
                ("python-version", ["3.10"; "3.9"; "3.8"; "3.7"])];
     fail_fast := false;
     runs_on := "${{ matrix.os }}";
     job_name := "${{ matrix.os }} py${{ matrix.python-version }}";
     steps := [checkout; setup_python; pytest_install;
               pytest_test; pytest_test_coverage; pytest_upload] |}.

Definition pytest : workflow :=
  {| wf_name := "pytest";
     on := [push ["main"]; pull_request ["**"]];
     jobs := [("pytest", pytest_job)] |}.

(** The workflow definitions of the repository. *)
Definition workflows : list workflow := [nightly; pytest].

End Workflows.

(** ** References to the matrix in a workflow

    Names, [with:] values and [runs-on:] labels are templates: text in
    which [${{ matrix.key }}] stands for the value the combination gives
    to [key].  Conditions refer to the matrix through [Matrix key]. *)

Module Templates.

Import Actions.

Definition is_key_char (c : ascii) : bool :=
  between "a" "z" c || between "A" "Z" c || is_digit c
  || Ascii.eqb c "-" || Ascii.eqb c "_".

(** The longest run of key characters at the head of a text. *)
Fixpoint take_key (s : string) : string :=
  match s with
  | String c s' => if is_key_char c then String c (take_key s') else EmptyString
  | EmptyString => EmptyString
  end.

Fixpoint drop (n : nat) (s : string) : string :=
  match n, s with
  | S n', String _ s' => drop n' s'
  | _, _ => s
  end.

(** The keys [k] of the places where [matrix.k] is written in a text. *)
Fixpoint template_keys (s : string) : list string :=
  match s with
  | EmptyString => []
  | String _ s' =>
    (if String.prefix "matrix." s then [take_key (drop 7 s)] else [])
    ++ template_keys s'
  end.

Fixpoint expr_keys (e : expr) : list string :=
  match e with
  | Matrix k => [k]
  | Lit _ => []
  | Eq a b | Ne a b | And a b => expr_keys a ++ expr_keys b
  end.

Definition text_keys (o : option string) : list string :=
  match o with
  | Some s => template_keys s
  | None => []
  end.

Definition cond_keys (o : option expr) : list string :=
  match o with
  | Some e => expr_keys e
  | None => []
  end.

(** Every key of the matrix a step refers to: in its name, its
    condition, its [with:] values and its command. *)
Definition step_references (s : step) : list string :=
  text_keys (name s) ++ cond_keys (cond s)
  ++ flat_map (fun kv => template_keys (snd kv)) (with_ s)
  ++ text_keys (run s).

Definition job_references (j : job) : list string :=
  template_keys (runs_on j) ++ template_keys (job_name j)
  ++ flat_map step_references (steps j).

(** An atom is a reference to the matrix or a literal; a condition is a
    comparison of two atoms or a conjunction of conditions. *)
Definition is_atom (e : expr) : bool :=
  match e with
  | Matrix _ | Lit _ => true
  | _ => false
  end.

Fixpoint is_condition (e : expr) : bool :=
  match e with
  | Eq a b | Ne a b => is_atom a && is_atom b
  | And a b => is_condition a && is_condition b
  | _ => false
  end.

(** What a job needs for its conditions to be decided: it refers to
    declared keys only, and its conditions are comparisons. *)
Definition well_formed_job (j : job) : Prop :=
  incl (job_references j) (map fst (matrix j))
  /\ Forall (fun s => forall e, cond s = Some e -> is_condition e = true) (steps j).


Definition value_of (c : combination) (k : string) : string :=
  match lookup k c with
  | Some v => v
  | None => EmptyString
  end.



End Templates.

(** ** The comments that head the nightly workflow file *)

Module Comments.

(** The comment lines above [name: nightly]. *)
Definition nightly_header : list string :=
  ["# This workflow installs the package on Python 3.8, runs the tests and builds the docs";
   "# For more information see: https://help.github.com/actions/language-and-framework-guides/using-python-with-github-actions"].

(** The Python versions of the jobs a workflow starts. *)
Definition python_versions (w : Actions.workflow) : list (option string) :=
  map (fun r => Actions.lookup "python-version" (fst r)) (Actions.workflow_runs w).

End Comments.

(** * Theorems *)

(** ** The notebook document *)

(** C9.  Every cell of the notebook is a markdown cell or a code cell, and
    the document declares notebook format version 4. *)
Theorem notebook_cells_markdown_or_code :
  Forall (fun c => Notebook.cell_type c = "markdown" \/ Notebook.cell_type c = "code")
         (Notebook.nb_cells Notebook.unit_conversion)
  /\ Notebook.nbformat Notebook.unit_conversion = 4%Z.
Proof.
  split; [| reflexivity].
  unfold Notebook.unit_conversion, Notebook.nb_cells, Notebook.cells.
  repeat (constructor; [ (left; reflexivity) || (right; reflexivity) |]).
  constructor.
Qed.

(** The code cells are the odd-numbered cells. *)
Lemma code_cells_unit_conversion :
  Notebook.code_cells Notebook.unit_conversion =
  [Notebook.cell_01; Notebook.cell_03; Notebook.cell_05; Notebook.cell_07;
   Notebook.cell_09; Notebook.cell_11; Notebook.cell_13; Notebook.cell_15;
   Notebook.cell_17; Notebook.cell_19].
Proof. reflexivity. Qed.

(** The frames are built in the second code cell; eight code cells follow. *)
Lemma conversion_cells_unit_conversion :
  Python.conversion_cells Notebook.unit_conversion =
  [Notebook.cell_05; Notebook.cell_07; Notebook.cell_09; Notebook.cell_11;
   Notebook.cell_13; Notebook.cell_15; Notebook.cell_17; Notebook.cell_19].
Proof.
  unfold Python.conversion_cells.
  rewrite code_cells_unit_conversion.
  assert (H1 : Python.constructs_frames Notebook.cell_01 = false) by (vm_compute; reflexivity).
  assert (H3 : Python.constructs_frames Notebook.cell_03 = true) by (vm_compute; reflexivity).
  cbn [Python.after_first].
  rewrite H1, H3.
  reflexivity.
Qed.

(** The cell that shows pint's application registry has two statements,
    an import and a call, and no [convert_unit]. *)
Lemma registry_cell_statements :
  Python.statements Notebook.cell_17 =
  [[Python.NAME "import"; Python.NAME "pint"];
   [Python.NAME "pint"; Python.OP "."; Python.NAME "get_application_registry";
    Python.OP "("; Python.OP ")"]].
Proof. vm_compute. reflexivity. Qed.

(** The cell that tracks the metric in the unit: two assignments and
    one parenthesised chain over three lines, read as one statement. *)
Lemma rename_cell_statements :
  Python.statements Notebook.cell_15 =
  [[Python.NAME "gwp"; Python.OP "="; Python.STRING EmptyString "AR5GWP100"];
   [Python.NAME "target"; Python.OP "="; Python.STRING EmptyString "Mt CO2e/yr"];
   [Python.OP "("; Python.NAME "df"; Python.OP "."; Python.NAME "convert_unit";
    Python.OP "("; Python.STRING EmptyString "Mt CH4/yr"; Python.OP ",";
    Python.NAME "to"; Python.OP "="; Python.NAME "target"; Python.OP ",";
    Python.NAME "context"; Python.OP "="; Python.NAME "gwp"; Python.OP ")";
    Python.OP "."; Python.NAME "rename"; Python.OP "("; Python.NAME "unit";
    Python.OP "="; Python.OP "{"; Python.NAME "target"; Python.OP ":";
    Python.STRING "f" "{target} ({gwp})"; Python.OP "}"; Python.OP ")";
    Python.OP "."; Python.NAME "timeseries"; Python.OP "("; Python.OP ")";
    Python.OP ")"]].
Proof. vm_compute. reflexivity. Qed.

(** C5, as stated, fails: the code cell [import pint;
    pint.get_application_registry()] comes after the construction of the
    frames and neither calls [convert_unit] nor shows a [timeseries()]. *)
Lemma notebook_not_only_conversions :
  ~ Python.linear_conversion_script Notebook.unit_conversion.
Proof.
  intros (_ & _ & H & _).
  rewrite conversion_cells_unit_conversion in H.
  rewrite Forall_forall in H.
  assert (Hin : In Notebook.cell_17
                   [Notebook.cell_05; Notebook.cell_07; Notebook.cell_09;
                    Notebook.cell_11; Notebook.cell_13; Notebook.cell_15;
                    Notebook.cell_17; Notebook.cell_19])
    by (simpl; tauto).
  apply H in Hin.
  vm_compute in Hin.
  discriminate Hin.
Qed.

(** C5, amended.  The notebook is a linear script: [pd.DataFrame] and
    [pyam.IamDataFrame] are each called once; of the code cells after that
    one, every cell but one ends in a statement
    [x.convert_unit(...).timeseries()], possibly with a [.rename(...)]
    between the two calls; the one other cell imports pint and shows
    [pint.get_application_registry()]; and no code cell has a loop, a
    branch or any other control-flow keyword. *)
Theorem notebook_linear_script :
  Python.calls_in_notebook "pd" "DataFrame" Notebook.unit_conversion = 1%nat
  /\ Python.calls_in_notebook "pyam" "IamDataFrame" Notebook.unit_conversion = 1%nat
  /\ Forall (fun c => Python.displays_conversion c = true
                      \/ Python.shows_registry c = true)
            (Python.conversion_cells Notebook.unit_conversion)
  /\ filter (fun c => negb (Python.displays_conversion c))
            (Python.conversion_cells Notebook.unit_conversion)
     = [Notebook.cell_17]
  /\ Forall (fun c => Python.uses_control_flow c = false)
            (Notebook.code_cells Notebook.unit_conversion).
Proof.
  split; [vm_compute; reflexivity |].
  split; [vm_compute; reflexivity |].
  rewrite conversion_cells_unit_conversion, code_cells_unit_conversion.
  split; [| split].
  - repeat (constructor;
            [ (left; vm_compute; reflexivity) || (right; vm_compute; reflexivity) |]).
    constructor.
  - assert (H5 : Python.displays_conversion Notebook.cell_05 = true) by (vm_compute; reflexivity).
    assert (H7 : Python.displays_conversion Notebook.cell_07 = true) by (vm_compute; reflexivity).
    assert (H9 : Python.displays_conversion Notebook.cell_09 = true) by (vm_compute; reflexivity).
    assert (H11 : Python.displays_conversion Notebook.cell_11 = true) by (vm_compute; reflexivity).
    assert (H13 : Python.displays_conversion Notebook.cell_13 = true) by (vm_compute; reflexivity).
    assert (H15 : Python.displays_conversion Notebook.cell_15 = true) by (vm_compute; reflexivity).
    assert (H17 : Python.displays_conversion Notebook.cell_17 = false) by (vm_compute; reflexivity).
    assert (H19 : Python.displays_conversion Notebook.cell_19 = true) by (vm_compute; reflexivity).
    cbn [filter].
    rewrite H5, H7, H9, H11, H13, H15, H17, H19.
    reflexivity.
  - repeat (constructor; [vm_compute; reflexivity |]).
    constructor.
Qed.

(** ** The workflows *)

Section Triggers.

Import Actions Workflows.

(** A pattern of plain characters matches exactly the branch of that name. *)
Lemma glob_match_chars (l : list ascii) (s : string) :
  glob_match (map GChar l) s = (string_of_list_ascii l =? s).
Proof.
  revert s. induction l as [| c l IH]; intros [| d s]; simpl; try reflexivity.
  rewrite IH. destruct (Ascii.eqb c d); reflexivity.
Qed.

Lemma branch_matches_main (b : string) :
  branch_matches "main" b = true <-> b = "main".
Proof.
  unfold branch_matches.
  change (parse_glob "main") with (map GChar (list_ascii_of_string "main")).
  rewrite glob_match_chars, string_of_list_ascii_of_string.
  rewrite String.eqb_eq. split; congruence.
Qed.

(** The pattern [**] matches every branch name. *)
Lemma branch_matches_starstar (b : string) :
  branch_matches "**" b = true.
Proof.
  unfold branch_matches.
  change (parse_glob "**") with [GStarStar].
  induction b as [| c b IH].
  - reflexivity.
  - simpl. simpl in IH. exact IH.
Qed.

(** The cron expression of the nightly workflow, field by field. *)
Lemma nightly_cron_fires (t : time) :
  fires_at "0 5 * * TUE" t
  = (t_minute t =? 0)%nat && (t_hour t =? 5)%nat && (t_weekday t =? 2)%nat.
Proof.
  unfold fires_at.
  change (parse_cron "0 5 * * TUE")
    with (Some {| minute := At 0; hour := At 5; day_of_month := Any;
                  month := Any; day_of_week := At 2 |}).
  unfold cron_matches, day_matches. simpl.
  rewrite andb_true_r. reflexivity.
Qed.

Lemma triggers_nightly (o : occurrence) :
  triggers nightly o = true <->
  exists t, o = Tick t /\ t_weekday t = 2%nat /\ t_hour t = 5%nat /\ t_minute t = 0%nat.
Proof.
  unfold triggers, nightly; cbn [on existsb triggered_by].
  destruct o as [t | b | b].
  - rewrite !orb_false_r, nightly_cron_fires, !andb_true_iff, !Nat.eqb_eq.
    split.
    + intros [[Hm Hh] Hw]. exists t. auto.
    + intros (t' & Ht & Hw & Hh & Hm). injection Ht as <-. auto.
  - split; [discriminate |]. intros (t & Ht & _). discriminate Ht.
  - split; [discriminate |]. intros (t & Ht & _). discriminate Ht.
Qed.

Lemma triggers_pytest (o : occurrence) :
  triggers pytest o = true <->
  o = Pushed "main" \/ exists b, o = PullRequested b.
Proof.
  unfold triggers, pytest; cbn [on existsb triggered_by].
  destruct o as [t | b | b].
  - split; [discriminate |]. intros [H | (b & H)]; discriminate H.
  - rewrite !orb_false_r, branch_matches_main.
    split.
    + intros ->. left. reflexivity.
    + intros [H | (b' & H)]; [injection H as ->; reflexivity | discriminate H].
  - rewrite !orb_false_r, branch_matches_starstar.
    split; [| reflexivity]. intros _. right. exists b. reflexivity.
Qed.

Lemma nightly_once_a_week (date : nat -> nat * nat) :
  filter (fun p => triggers nightly (Tick (at_slot date p))) week
  = [(2, (5, 0))]%nat.
Proof.
  rewrite (filter_ext _
             (fun p => (snd (snd p) =? 0)%nat && (fst (snd p) =? 5)%nat
                       && (fst p =? 2)%nat)).
  - vm_compute. reflexivity.
  - intros p. unfold triggers, nightly; cbn [on existsb triggered_by].
    rewrite !orb_false_r, nightly_cron_fires. reflexivity.
Qed.

End Triggers.

(** C6.  The triggers of the two workflows are exactly these: the
    workflow named nightly has one schedule, the cron expression
    [0 5 * * TUE], which fires on Tuesdays at 05:00 and so once in the
    minutes of any week; the workflow pytest runs on a push to the branch
    [main] and on a pull request against any branch. *)
Theorem workflow_triggers :
  Actions.wf_name Workflows.nightly = "nightly"
  /\ Actions.on Workflows.nightly = [Actions.schedule ["0 5 * * TUE"]]
  /\ Actions.on Workflows.pytest
     = [Actions.push ["main"]; Actions.pull_request ["**"]]
  /\ (forall o, Actions.triggers Workflows.nightly o = true <->
        exists t, o = Actions.Tick t /\ Actions.t_weekday t = 2%nat
                  /\ Actions.t_hour t = 5%nat /\ Actions.t_minute t = 0%nat)
  /\ (forall date,
        filter (fun p => Actions.triggers Workflows.nightly
                           (Actions.Tick (Actions.at_slot date p)))
               Actions.week
        = [(2, (5, 0))]%nat)
  /\ (forall o, Actions.triggers Workflows.pytest o = true <->
        o = Actions.Pushed "main" \/ exists b, o = Actions.PullRequested b).
Proof.
  split; [reflexivity |].
  split; [reflexivity |].
  split; [reflexivity |].
  split; [exact triggers_nightly |].
  split; [exact nightly_once_a_week | exact triggers_pytest].
Qed.

Section Matrix.

Import Actions Workflows.

(** The combinations of a matrix with a first key [k]: a value of [k]
    in front of a combination of the other keys. *)
Lemma in_combinations_cons k vs m (c : combination) :
  In c (combinations ((k, vs) :: m)) <->
  exists v c', In v vs /\ In c' (combinations m) /\ c = (k, v) :: c'.
Proof.
  cbn [combinations]. rewrite in_flat_map. split.
  - intros (v & Hv & Hc). apply in_map_iff in Hc as (c' & <- & Hc').
    exists v, c'. auto.
  - intros (v & c' & Hv & Hc' & ->). exists v. split; [exact Hv |].
    apply in_map_iff. exists c'. auto.
Qed.

Lemma in_combinations_nil (c : combination) :
  In c (combinations []) <-> c = [].
Proof.
  simpl. split; [intros [<- | []]; reflexivity | intros ->; left; reflexivity].
Qed.

(** A matrix has as many combinations as the product of the numbers of
    values of its keys. *)
Lemma length_combinations m :
  length (combinations m)
  = fold_right (fun kv n => (length (snd kv) * n)%nat) 1%nat m.
Proof.
  induction m as [| [k vs] m IH]; [reflexivity |].
  cbn [combinations fold_right snd]. rewrite <- IH.
  generalize (combinations m) as cs. intros cs.
  induction vs as [| v vs IHvs]; [reflexivity |].
  cbn [flat_map length]. rewrite length_app, length_map.
  cbn [Nat.mul]. f_equal. exact IHvs.
Qed.

(** The combinations of the pytest matrix are the pairs of one of its
    operating systems and one of its Python versions. *)
Lemma pytest_combinations (c : combination) :
  In c (combinations (matrix pytest_job)) <->
  exists o v,
    In o ["macos-latest"; "ubuntu-latest"; "windows-latest"]
    /\ In v ["3.10"; "3.9"; "3.8"; "3.7"]
    /\ c = [("os", o); ("python-version", v)].
Proof.
  unfold pytest_job; cbn [matrix].
  rewrite in_combinations_cons. split.
  - intros (o & c' & Ho & Hc' & ->).
    apply in_combinations_cons in Hc' as (v & c'' & Hv & Hc'' & ->).
    apply in_combinations_nil in Hc'' as ->.
    exists o, v. auto.
  - intros (o & v & Ho & Hv & ->).
    exists o, [("python-version", v)]. split; [exact Ho |]. split; [| reflexivity].
    apply in_combinations_cons. exists v, []. split; [exact Hv |].
    split; [apply in_combinations_nil |]; reflexivity.
Qed.

Lemma pytest_combinations_list :
  combinations (matrix pytest_job) =
  [ [("os", "macos-latest"); ("python-version", "3.10")];
    [("os", "macos-latest"); ("python-version", "3.9")];
    [("os", "macos-latest"); ("python-version", "3.8")];
    [("os", "macos-latest"); ("python-version", "3.7")];
    [("os", "ubuntu-latest"); ("python-version", "3.10")];
    [("os", "ubuntu-latest"); ("python-version", "3.9")];
    [("os", "ubuntu-latest"); ("python-version", "3.8")];
    [("os", "ubuntu-latest"); ("python-version", "3.7")];
    [("os", "windows-latest"); ("python-version", "3.10")];
    [("os", "windows-latest"); ("python-version", "3.9")];
    [("os", "windows-latest"); ("python-version", "3.8")];
    [("os", "windows-latest"); ("python-version", "3.7")] ].
Proof. reflexivity. Qed.

Lemma pytest_combinations_NoDup :
  NoDup (combinations (matrix pytest_job)).
Proof.
  rewrite pytest_combinations_list.
  repeat (constructor; [cbn [In]; intuition discriminate |]).
  constructor.
Qed.

End Matrix.

(** C7.  There are two workflow definitions.  The scheduled one
    (nightly) starts one job, which installs the package, runs the test
    suite and builds the documentation.  The one triggered by pushes and
    pull requests (pytest) starts a job per matrix combination, each of
    which installs the package and runs the test suite; the job on
    ubuntu-latest with Python 3.10 also uploads the coverage report. *)
Theorem two_workflows_three_duties :
  length Workflows.workflows = 2%nat
  /\ map (fun w => (Actions.wf_name w, Actions.event_kinds w)) Workflows.workflows
     = [("nightly", ["schedule"]); ("pytest", ["push"; "pull_request"])]
  /\ Actions.workflow_runs Workflows.nightly
     = [([("os", "ubuntu-latest"); ("python-version", "3.10")],
         [Actions.Install; Actions.Test; Actions.Docs])]
  /\ Actions.workflow_runs Workflows.pytest
     = [([("os", "macos-latest"); ("python-version", "3.10")],
         [Actions.Install; Actions.Test]);
        ([("os", "macos-latest"); ("python-version", "3.9")],
         [Actions.Install; Actions.Test]);
        ([("os", "macos-latest"); ("python-version", "3.8")],
         [Actions.Install; Actions.Test]);
        ([("os", "macos-latest"); ("python-version", "3.7")],
         [Actions.Install; Actions.Test]);
        ([("os", "ubuntu-latest"); ("python-version", "3.10")],
         [Actions.Install; Actions.Test; Actions.Coverage]);
        ([("os", "ubuntu-latest"); ("python-version", "3.9")],
         [Actions.Install; Actions.Test]);
        ([("os", "ubuntu-latest"); ("python-version", "3.8")],
         [Actions.Install; Actions.Test]);
        ([("os", "ubuntu-latest"); ("python-version", "3.7")],
         [Actions.Install; Actions.Test]);
        ([("os", "windows-latest"); ("python-version", "3.10")],
         [Actions.Install; Actions.Test]);
        ([("os", "windows-latest"); ("python-version", "3.9")],
         [Actions.Install; Actions.Test]);
        ([("os", "windows-latest"); ("python-version", "3.8")],
         [Actions.Install; Actions.Test]);
        ([("os", "windows-latest"); ("python-version", "3.7")],
         [Actions.Install; Actions.Test])].
Proof.
  repeat split; vm_compute; reflexivity.
Qed.

(** C8.  Each workflow declares, for each of its jobs, a matrix with the
    keys [os] and [python-version], each with at least one value, and
    steps that install the package and invoke pytest.  The matrix of the
    pytest workflow lists three operating systems and four Python
    versions with fail-fast off; its combinations are exactly the twelve
    pairs of one and the other, none twice; and in every combination the
    install step and a pytest step run. *)
Theorem workflow_matrices :
  Forall (fun w =>
    Forall (fun nj =>
      map fst (Actions.matrix (snd nj)) = ["os"; "python-version"]
      /\ Forall (fun kv => snd kv <> []) (Actions.matrix (snd nj))
      /\ existsb Actions.is_install_step (Actions.steps (snd nj)) = true
      /\ existsb Actions.is_test_step (Actions.steps (snd nj)) = true)
    (Actions.jobs w)) Workflows.workflows
  /\ Actions.matrix Workflows.pytest_job
     = [("os", ["macos-latest"; "ubuntu-latest"; "windows-latest"]);
        ("python-version", ["3.10"; "3.9"; "3.8"; "3.7"])]
  /\ Actions.fail_fast Workflows.pytest_job = false
  /\ (forall c,
        In c (Actions.combinations (Actions.matrix Workflows.pytest_job)) <->
        exists o v,
          In o ["macos-latest"; "ubuntu-latest"; "windows-latest"]
          /\ In v ["3.10"; "3.9"; "3.8"; "3.7"]
          /\ c = [("os", o); ("python-version", v)])
  /\ length (Actions.combinations (Actions.matrix Workflows.pytest_job)) = 12%nat
  /\ NoDup (Actions.combinations (Actions.matrix Workflows.pytest_job))
  /\ Forall (fun c =>
        existsb Actions.is_install_step
                (Actions.executed_steps Workflows.pytest_job c) = true
        /\ existsb Actions.is_test_step
                   (Actions.executed_steps Workflows.pytest_job c) = true)
      (Actions.combinations (Actions.matrix Workflows.pytest_job)).
Proof.
  split.
  { repeat (constructor; try discriminate); vm_compute; reflexivity. }
  split; [reflexivity |].
  split; [reflexivity |].
  split; [exact pytest_combinations |].
  split; [rewrite length_combinations; reflexivity |].
  split; [exact pytest_combinations_NoDup |].
  rewrite pytest_combinations_list.
  repeat (constructor; [split; vm_compute; reflexivity |]).
  constructor.
Qed.

(** C10.  The pytest job has two test steps, [pytest tests] and
    [pytest tests --mpl --cov=./ --cov-report=xml].  In every combination
    of the matrix the first runs exactly when the Python version is not
    3.10 and the second exactly when it is 3.10, so that one and only one
    of the two runs; the same holds of any combination that gives
    [python-version] a value. *)
Theorem pytest_exactly_one_test_step :
  filter Actions.is_test_step (Actions.steps Workflows.pytest_job)
  = [Workflows.pytest_test; Workflows.pytest_test_coverage]
  /\ Actions.run Workflows.pytest_test = Some "pytest tests"
  /\ Actions.run Workflows.pytest_test_coverage
     = Some "pytest tests --mpl --cov=./ --cov-report=xml"
  /\ Forall (fun c =>
        (Actions.step_runs c Workflows.pytest_test = true <->
         Actions.lookup "python-version" c <> Some "3.10")
        /\ (Actions.step_runs c Workflows.pytest_test_coverage = true <->
            Actions.lookup "python-version" c = Some "3.10")
        /\ Actions.step_runs c Workflows.pytest_test
           = negb (Actions.step_runs c Workflows.pytest_test_coverage)
        /\ length (filter Actions.is_test_step
                     (Actions.executed_steps Workflows.pytest_job c)) = 1%nat)
      (Actions.combinations (Actions.matrix Workflows.pytest_job))
  /\ (forall c v,
        Actions.lookup "python-version" c = Some v ->
        Actions.step_runs c Workflows.pytest_test
        = negb (Actions.step_runs c Workflows.pytest_test_coverage)).
Proof.
  split; [vm_compute; reflexivity |].
  split; [reflexivity |].
  split; [reflexivity |].
  split.
  - rewrite pytest_combinations_list.
    repeat (constructor;
            [ split; [| split; [| split]];
              [ vm_compute; split; (reflexivity || discriminate || congruence)
              | vm_compute; split; (reflexivity || discriminate || congruence)
              | vm_compute; reflexivity
              | vm_compute; reflexivity ] |]).
    constructor.
  - intros c v Hv.
    unfold Actions.step_runs, Workflows.pytest_test, Workflows.pytest_test_coverage.
    cbn [Actions.cond Actions.eval]. rewrite Hv.
    cbn [Actions.value_eqb option_map Actions.truthy].
    reflexivity.
Qed.

(** ** More on the workflows *)

Section WorkflowFacts.

Import Actions Workflows Templates.

(** A combination of a matrix defines every key of the matrix. *)
Lemma lookup_in_combinations
    (m : list (string * list string)) (c : combination) (k : string) :
  In c (combinations m) ->
  In k (map fst m) ->
  lookup k c <> None.
Proof.
  revert c. induction m as [| [k0 vs0] m IH]; intros c Hc Hk.
  - destruct Hk.
  - apply in_combinations_cons in Hc as (v & c' & _ & Hc' & ->).
    cbn [lookup]. destruct (String.eqb_spec k0 k) as [-> | Hne].
    + discriminate.
    + destruct Hk as [Hk | Hk]; [cbn in Hk; contradiction |].
      exact (IH c' Hc' Hk).
Qed.

(** X1.  Every combination of a matrix gives each key of the matrix a
    value, and the value is one of those listed under that key. *)
Theorem combination_gives_declared_value
    (m : list (string * list string)) (c : combination) (k : string) :
  In c (combinations m) ->
  In k (map fst m) ->
  exists vs v, In (k, vs) m /\ In v vs /\ lookup k c = Some v.
Proof.
  revert c. induction m as [| [k0 vs0] m IH]; intros c Hc Hk.
  - destruct Hk.
  - apply in_combinations_cons in Hc as (v & c' & Hv & Hc' & ->).
    cbn [lookup]. destruct (String.eqb_spec k0 k) as [-> | Hne].
    + exists vs0, v. split; [left; reflexivity | auto].
    + destruct Hk as [Hk | Hk]; [cbn in Hk; contradiction |].
      destruct (IH c' Hc' Hk) as (vs & v' & Hin & Hv' & Hl).
      exists vs, v'. split; [right; exact Hin | auto].
Qed.

(** In the pytest matrix: the combination of windows-latest and 3.7
    gives [python-version] one of the four versions listed. *)
Lemma combination_gives_declared_value_pytest :
  exists vs v,
    In ("python-version", vs) (matrix pytest_job) /\ In v vs
    /\ lookup "python-version"
         [("os", "windows-latest"); ("python-version", "3.7")] = Some v.
Proof.
  apply (combination_gives_declared_value (matrix pytest_job)).
  - rewrite pytest_combinations_list. cbn [In]. tauto.
  - cbn. tauto.
Defined.

(** An atom whose key the combination defines is a string. *)
Lemma eval_atom (c : combination) (e : expr) :
  is_atom e = true ->
  (forall k, In k (expr_keys e) -> lookup k c <> None) ->
  exists s, eval c e = Some (Str s).
Proof.
  destruct e as [k | s | | |]; try discriminate; intros _ Hk.
  - cbn [eval]. destruct (lookup k c) as [v |] eqn:Hl.
    + exists v. reflexivity.
    + exfalso. apply (Hk k); [left; reflexivity | exact Hl].
  - exists s. reflexivity.
Qed.

(** A condition over keys the combination defines is true or false. *)
Lemma eval_condition (c : combination) (e : expr) :
  is_condition e = true ->
  (forall k, In k (expr_keys e) -> lookup k c <> None) ->
  exists b, eval c e = Some (Bool b).
Proof.
  induction e as [k | s | a _ b _ | a _ b _ | a IHa b IHb];
    cbn [is_condition expr_keys]; try discriminate; intros Hc Hk.
  - apply andb_true_iff in Hc as [Ha Hb].
    destruct (eval_atom c a Ha) as (x & Hx);
      [intros k Hin; apply Hk, in_or_app; left; exact Hin |].
    destruct (eval_atom c b Hb) as (y & Hy);
      [intros k Hin; apply Hk, in_or_app; right; exact Hin |].
    cbn [eval]. rewrite Hx, Hy. cbn. eauto.
  - apply andb_true_iff in Hc as [Ha Hb].
    destruct (eval_atom c a Ha) as (x & Hx);
      [intros k Hin; apply Hk, in_or_app; left; exact Hin |].
    destruct (eval_atom c b Hb) as (y & Hy);
      [intros k Hin; apply Hk, in_or_app; right; exact Hin |].
    cbn [eval]. rewrite Hx, Hy. cbn. eauto.
  - apply andb_true_iff in Hc as [Ha Hb].
    destruct (IHa Ha) as (x & Hx);
      [intros k Hin; apply Hk, in_or_app; left; exact Hin |].
    destruct (IHb Hb) as (y & Hy);
      [intros k Hin; apply Hk, in_or_app; right; exact Hin |].
    cbn [eval]. rewrite Hx. cbn [truthy].
    destruct x; [exact (ex_intro _ y Hy) | exists false; reflexivity].
Qed.

(** The keys of a step's condition are among the references of its job. *)
Lemma cond_keys_in_job (j : job) (s : step) (e : expr) (k : string) :
  In s (steps j) -> cond s = Some e -> In k (expr_keys e) ->
  In k (job_references j).
Proof.
  intros Hs He Hk. unfold job_references.
  apply in_or_app; right. apply in_or_app; right.
  apply in_flat_map. exists s. split; [exact Hs |].
  unfold step_references. apply in_or_app; right. apply in_or_app; left.
  rewrite He. exact Hk.
Qed.

Lemma well_formed_job_decides (j : job) (c : combination) (s : step) (e : expr) :
  well_formed_job j ->
  In c (combinations (matrix j)) -> In s (steps j) -> cond s = Some e ->
  exists b, eval c e = Some (Bool b).
Proof.
  intros [Hrefs Hconds] Hc Hs He.
  apply eval_condition.
  - rewrite Forall_forall in Hconds. exact (Hconds s Hs e He).
  - intros k Hk Hnone.
    assert (Hdecl : In k (map fst (matrix j)))
      by (apply Hrefs; exact (cond_keys_in_job j s e k Hs He Hk)).
    exact (lookup_in_combinations _ c k Hc Hdecl Hnone).
Qed.

Lemma nightly_job_well_formed : well_formed_job nightly_job.
Proof.
  split.
  - intros k Hk. vm_compute in Hk. cbn.
    repeat (destruct Hk as [<- | Hk]; [tauto |]). destruct Hk.
  - repeat (constructor; [intros e He; try discriminate He |]).
    constructor.
Qed.

Lemma pytest_job_well_formed : well_formed_job pytest_job.
Proof.
  split.
  - intros k Hk. vm_compute in Hk. cbn.
    repeat (destruct Hk as [<- | Hk]; [tauto |]). destruct Hk.
  - repeat (constructor;
            [intros e He; try discriminate He;
             injection He as <-; reflexivity |]).
    constructor.
Qed.

(** X2.  In both workflows every [matrix.key] that a job writes, in a
    template or in a condition, is a key its matrix declares; and so
    every [if:] condition comes out true or false in every combination,
    never undecided. *)
Theorem matrix_references_declared :
  Forall (fun w =>
    Forall (fun nj =>
      incl (job_references (snd nj)) (map fst (matrix (snd nj))))
    (jobs w)) workflows
  /\ forall w nj c s e,
       In w workflows -> In nj (jobs w) ->
       In c (combinations (matrix (snd nj))) ->
       In s (steps (snd nj)) -> cond s = Some e ->
       exists b, eval c e = Some (Bool b).
Proof.
  split.
  - constructor; [| constructor; [| constructor]].
    + constructor; [exact (proj1 nightly_job_well_formed) | constructor].
    + constructor; [exact (proj1 pytest_job_well_formed) | constructor].
  - intros w nj c s e Hw Hnj Hc Hs He.
    destruct Hw as [<- | [<- | []]];
      destruct Hnj as [<- | []]; cbn [snd] in *.
    + exact (well_formed_job_decides _ c s e nightly_job_well_formed Hc Hs He).
    + exact (well_formed_job_decides _ c s e pytest_job_well_formed Hc Hs He).
Qed.

(** X3.  Whatever the combination, if the step that uploads the coverage
    report runs, the steps that ran before it are the checkout, the
    Python set-up, the install step and the test step that writes the
    coverage report; the plain test step did not run. *)
Theorem upload_runs_after_coverage (c : combination) :
  step_runs c pytest_upload = true ->
  executed_steps pytest_job c
  = [checkout; setup_python; pytest_install; pytest_test_coverage; pytest_upload].
Proof.
  intros Hup.
  assert (Hcov : step_runs c pytest_test_coverage = true
                 /\ step_runs c pytest_test = false).
  { revert Hup. unfold step_runs.
    cbn [cond pytest_upload pytest_test_coverage pytest_test eval].
    destruct (lookup "os" c) as [o |]; cbn [value_eqb option_map];
      [| discriminate].
    cbn [truthy].
    destruct (lowercase o =? lowercase "ubuntu-latest"); [| discriminate].
    destruct (lookup "python-version" c) as [v |]; cbn [value_eqb option_map];
      [| discriminate].
    cbn [truthy].
    destruct (lowercase v =? lowercase "3.10"); [| discriminate].
    intros _. split; reflexivity. }
  destruct Hcov as [Hcov Hplain].
  unfold executed_steps, pytest_job. cbn [steps filter].
  rewrite Hup, Hcov, Hplain. reflexivity.
Qed.

(** The combination of ubuntu-latest and 3.10, where the upload runs. *)
Lemma upload_runs_after_coverage_ubuntu :
  executed_steps pytest_job [("os", "ubuntu-latest"); ("python-version", "3.10")]
  = [checkout; setup_python; pytest_install; pytest_test_coverage; pytest_upload].
Proof.
  apply upload_runs_after_coverage. vm_compute. reflexivity.
Defined.



End WorkflowFacts.

(** ** More on the notebook *)

Section ScriptFacts.

Import Notebook Python.

(** Running statements one list after another. *)
Lemma run_app (bound : list string) (l1 l2 : list (list token)) :
  Scope.run bound (l1 ++ l2)
  = match Scope.run bound l1 with
    | Some bound' => Scope.run bound' l2
    | None => None
    end.
Proof.
  revert bound. induction l1 as [| s l1 IH]; intros bound; [reflexivity |].
  cbn [app Scope.run].
  destruct (forallb (Scope.bound_in bound) (Scope.reads_of s)); [apply IH | reflexivity].
Qed.

(** If some cells run top down, so do the first [k] of them. *)
Lemma runs_top_down_prefix (cells : list cell) (k : nat) :
  Scope.runs_top_down cells = true ->
  Scope.runs_top_down (firstn k cells) = true.
Proof.
  unfold Scope.runs_top_down, Scope.script.
  rewrite <- (firstn_skipn k cells) at 1.
  rewrite flat_map_app, run_app.
  destruct (Scope.run [] (flat_map statements (firstn k cells)));
    [reflexivity | discriminate].
Qed.

(** X5.  Run from the top and stopped after any number of code cells, the
    notebook never reads a name that has not been bound by an import or
    an assignment above.  The last cell reads [pint], which only the
    cell showing the application registry imports: without that cell
    the notebook would not run. *)
Theorem notebook_runs_top_down :
  (forall k,
     Scope.runs_top_down (firstn k (code_cells unit_conversion)) = true)
  /\ Scope.runs_top_down
       [cell_01; cell_03; cell_05; cell_07; cell_09; cell_11; cell_13;
        cell_15; cell_19] = false.
Proof.
  split.
  - intros k. apply runs_top_down_prefix. vm_compute. reflexivity.
  - vm_compute. reflexivity.
Qed.


(** X7.  The cell that defines the data has three statements: the first
    binds [UNIT_DF] to the table that the model calls [UNIT_DF] (its
    rows, index columns and year columns read from the text of the
    cell), the second makes [df] from it, the third shows it. *)
Theorem unit_df_as_written :
  exists s1 s2 s3,
    statements cell_03 = [s1; s2; s3]
    /\ Scope.binds s1 = ["UNIT_DF"]
    /\ Calls.parse_frame s1 = Some Units.UNIT_DF
    /\ s2 = [NAME "df"; OP "="; NAME "pyam"; OP "."; NAME "IamDataFrame";
             OP "("; NAME "UNIT_DF"; OP ")"]
    /\ s3 = [NAME "df"; OP "."; NAME "timeseries"; OP "("; OP ")"].
Proof.
  exists (nth 0 (statements cell_03) []),
         (nth 1 (statements cell_03) []),
         (nth 2 (statements cell_03) []).
  repeat split; vm_compute; reflexivity.
Qed.

(** X8.  Every conversion of the tutorial names as its source a unit that a
    row of the table has, and as its target a unit that no row has.
    The cell that keeps the metric in variables makes the same call as
    the cell before it. *)
Theorem conversions_name_units_of_the_table :
  Forall (fun c =>
    displays_conversion c = true ->
    exists args,
      Calls.convert_unit_call c = Some args
      /\ Calls.is_unit_of Units.UNIT_DF (Calls.passed None args) = true
      /\ Calls.is_new_unit Units.UNIT_DF (Calls.passed (Some "to") args) = true)
    (code_cells unit_conversion)
  /\ Calls.convert_unit_call cell_15 = Calls.convert_unit_call cell_13.
Proof.
  split; [| vm_compute; reflexivity].
  rewrite code_cells_unit_conversion.
  repeat (constructor;
          [ intros H;
            (vm_compute in H; discriminate H)
            || (eexists; split; [vm_compute; reflexivity |];
                split; vm_compute; reflexivity) |]).
  constructor.
Qed.

(** X9.  The last cell defines, in its own registry, [my_unit] by
    [1 / 2.3 * EJ/yr] and converts from [EJ/yr] to [my_unit]: the same
    two units as the call of section 3 with the explicit factor, and
    the inverse of the number of the definition is that factor, 2.3. *)
Theorem registry_definition_matches_factor :
  exists d f,
    Calls.definitions (statements cell_19) = [("ureg", "my_unit = 1 / 2.3 * EJ/yr")]
    /\ Calls.parse_definition "my_unit = 1 / 2.3 * EJ/yr" = Some d
    /\ Calls.convert_unit_call cell_19
       = Some [(None, Calls.Text (Calls.reference d));
               (Some "to", Calls.Text (Calls.defined d));
               (Some "registry", Calls.Name "ureg")]
    /\ Calls.convert_unit_call cell_11
       = Some [(None, Calls.Text (Calls.reference d));
               (Some "to", Calls.Text (Calls.defined d));
               (Some "factor", Calls.Num "2.3")]
    /\ Calls.decimal 0 "2.3" = Some f
    /\ Qeq (Qinv (Calls.scale d)) f.
Proof.
  exists {| Calls.defined := "my_unit"; Calls.scale := Qmake 10 23;
            Calls.reference := "EJ/yr" |}, (Qmake 23 10).
  repeat split; vm_compute; reflexivity.
Qed.

End ScriptFacts.

(** X10.  The comment at the head of the nightly workflow speaks of Python
    3.8, but the one job the workflow starts has Python 3.10: it never
    runs on 3.8. *)
Theorem nightly_comment_python_version :
  existsb (contains "Python 3.8") Comments.nightly_header = true
  /\ Comments.python_versions Workflows.nightly = [Some "3.10"]
  /\ ~ In (Some "3.8") (Comments.python_versions Workflows.nightly).
Proof.
  split; [vm_compute; reflexivity |].
  split; [vm_compute; reflexivity |].
  vm_compute. intros [H | []]. discriminate H.
Qed.
